(** * Pariksa: a spell checker for Melayu (Ambon)

    A shallow embedding of [src/Spell Checker/pariksa.py] (class [Pariksa]):
    the constructor [__init__] and the two validators it calls,
    [_validate_input] and [_validate_configuration].

    Python values are an inductive type, [str] is a list of Unicode code
    points (so that [len] counts characters and [strip] follows CPython's
    whitespace table), exceptions are values of a result type, and an
    instance is its attribute dictionary.

    The suggestion engine and the dictionary store, which the source does
    not contain, are modelled from the design text in the modules [Engine]
    and [Store]. *)

From Stdlib Require Import ZArith Lia Ascii.
From stdpp Require Import gmap strings list sorting lexico.

Local Open Scope Z_scope.
Set Warnings "-register-all".

(** ** Python values *)

Module Py.

(** A [str] is a sequence of code points. *)
Definition codepoint := N.
Definition str := list codepoint.

(** [Py_UNICODE_ISSPACE], the test behind [str.strip()] and
    [str.isspace()]: the ASCII table entries TAB LF VT FF CR, FS GS RS US
    and SPACE, then NEL, NBSP and the Unicode space separators. *)
Definition Py_UNICODE_ISSPACE (c : codepoint) : bool :=
  ((9 <=? c) && (c <=? 13) || (28 <=? c) && (c <=? 32)
   || (c =? 133) || (c =? 160) || (c =? 5760)
   || (8192 <=? c) && (c <=? 8202)
   || (c =? 8232) || (c =? 8233) || (c =? 8239) || (c =? 8287)
   || (c =? 12288))%N.

Fixpoint lstrip (s : str) : str :=
  match s with
  | [] => []
  | c :: s' => if Py_UNICODE_ISSPACE c then lstrip s' else s
  end.

Definition rstrip (s : str) : str := rev (lstrip (rev s)).

(** [s.strip()] *)
Definition strip (s : str) : str := rstrip (lstrip s).

(** [s.isspace()]: at least one character, all of them whitespace. *)
Definition isspace (s : str) : bool :=
  match s with
  | [] => false
  | _ => forallb Py_UNICODE_ISSPACE s
  end.

(** The objects a caller can pass.  [PyObject truth] stands for an
    instance of any other class (dict, set, float, a user class ...), of
    which the validators only observe the truth value. *)
Inductive obj : Type :=
| PyNone
| PyBool (b : bool)
| PyInt (n : Z)
| PyStr (s : str)
| PyList (items : list obj)
| PyTuple (items : list obj)
| PyObject (truth : bool).

(** [len(x)] of a sequence, as a Python int. *)
Definition len {A} (l : list A) : Z := Z.of_nat (length l).

(** [bool(x)] *)
Definition truthy (x : obj) : bool :=
  match x with
  | PyNone => false
  | PyBool b => b
  | PyInt n => negb (n =? 0)
  | PyStr s => negb (len s =? 0)
  | PyList l => negb (len l =? 0)
  | PyTuple l => negb (len l =? 0)
  | PyObject t => t
  end.

(** [isinstance(x, str)] and [isinstance(x, list)] *)
Definition is_str (x : obj) : bool :=
  match x with PyStr _ => true | _ => false end.
Definition is_list (x : obj) : bool :=
  match x with PyList _ => true | _ => false end.

(** Exceptions.  [ValueError] is the only class the source raises;
    [AttributeError] is what [word.strip()] raises on a non-string. *)
Inductive exn : Type :=
| ValueError (msg : string)
| AttributeError (attr : string).

Inductive result (A : Type) : Type :=
| Return (a : A)
| Raise (e : exn).
Global Arguments Return {A} a.
Global Arguments Raise {A} e.

(** Sequencing: an exception aborts the rest of the block. *)
Global Instance result_ret : MRet result := @Return.
Global Instance result_bind : MBind result := λ A B k m,
  match m with
  | Return a => k a
  | Raise e => Raise e
  end.

Definition succeeds {A} (m : result A) : Prop := exists a, m = Return a.

(** An instance is its attribute dictionary ([self.__dict__]). *)
Record instance : Type := Instance { attrs : gmap string obj }.

Definition object_new : instance := Instance ∅.

(** Writing a [str] literal from ASCII text. *)
Definition text (s : string) : str :=
  Ascii.N_of_ascii <$> String.list_ascii_of_string s.

End Py.

Import Py.

(** ** The class *)

Module Pariksa.

(** Class constants (the identifier [SUPORTED_EXTENSIONS] is spelled as
    in the source). *)
Definition SUPORTED_EXTENSIONS : list string := [".txt"; ".json"]%string.
Definition DEFAULT_ENCODING : string := "utf-8".
Definition DEFAULT_DICTIONARY : string :=
  "Spellcheck/data/Melayu_Ambon_Wordlist.txt".
Definition DEFAULT_MAX_SUGGESTIONS : Z := 3.
Definition DEFAULT_MAX_DISTANCE : Z := 2.

(** [isinstance(word, str) and word.strip()], as a truth value *)
Definition nonempty_word (word : obj) : bool :=
  match word with
  | PyStr s => truthy (PyStr (strip s))
  | _ => false
  end.

(** [any(len(word.strip()) > 50 for word in input_data)]: stops at the
    first long word; a non-string has no [strip]. *)
Fixpoint any_too_long (input_data : list obj) : result bool :=
  match input_data with
  | [] => Return false
  | PyStr s :: rest =>
      if 50 <? len (strip s) then Return true else any_too_long rest
  | _ :: _ => Raise (AttributeError "strip")
  end.

Definition _validate_input (input_data : obj) : result unit :=
  if negb (truthy input_data) then
    Raise (ValueError "Input data cannot be empty")
  else
    match input_data with
    | PyStr s =>
        if negb (truthy (PyStr (strip s))) then
          Raise (ValueError "Word cannot be empty or just whitespace")
        else if 50 <? len (strip s) then
          Raise (ValueError "Word is too long (max 50 characters)")
        else Return tt
    | PyList l =>
        if 1000 <? len l then
          Raise (ValueError "Too many words (max 1000)")
        else if negb (forallb nonempty_word l) then
          Raise (ValueError "All words must be non-empty strings")
        else
          long ← any_too_long l;
          if (long : bool) then
            Raise (ValueError "Some words are too long (max 50 characters)")
          else Return tt
    | _ => Raise (ValueError "Input must be a string or list of strings")
    end.

Definition _validate_configuration (max_suggestions max_distance : Z)
  : result unit :=
  if (max_suggestions <? 0) || (10 <? max_suggestions) then
    Raise (ValueError "max_suggestions must be between 0 and 10")
  else if (max_distance <? 1) || (5 <? max_distance) then
    Raise (ValueError "max_distance must be between 1 and 5")
  else Return tt.

(** [__init__]: the body is the two validation calls; no attribute of
    [self] is assigned, and [dictionary_path], [case_sensitive],
    [enable_fuzzy_matching], [logger] and [log_level] are not read. *)
Definition __init__ (self : instance) (input_data : obj)
    (dictionary_path : obj) (case_sensitive : bool)
    (max_suggestions max_distance : Z) (enable_fuzzy_matching : bool)
    (logger : obj) (log_level : Z) : result instance :=
  _validate_input input_data ;;
  _validate_configuration max_suggestions max_distance ;;
  Return self.

(** The call [Pariksa(...)]: a fresh object handed to [__init__]. *)
Definition new (input_data : obj)
    (dictionary_path : obj) (case_sensitive : bool)
    (max_suggestions max_distance : Z) (enable_fuzzy_matching : bool)
    (logger : obj) (log_level : Z) : result instance :=
  __init__ object_new input_data dictionary_path case_sensitive
    max_suggestions max_distance enable_fuzzy_matching logger log_level.

(** The spec's error taxonomy, read on the source: each name stands for
    the [ValueError]s raised by one validator. *)
Definition input_messages : list string :=
  [ "Input data cannot be empty";
    "Word cannot be empty or just whitespace";
    "Word is too long (max 50 characters)";
    "Too many words (max 1000)";
    "All words must be non-empty strings";
    "Some words are too long (max 50 characters)";
    "Input must be a string or list of strings" ]%string.

Definition configuration_messages : list string :=
  [ "max_suggestions must be between 0 and 10";
    "max_distance must be between 1 and 5" ]%string.

Definition InvalidInputError (e : exn) : Prop :=
  exists msg, e = ValueError msg /\ msg ∈ input_messages.

Definition InvalidConfigurationError (e : exn) : Prop :=
  exists msg, e = ValueError msg /\ msg ∈ configuration_messages.

(** The ranges [_validate_configuration] documents. *)
Definition in_range (max_suggestions max_distance : Z) : Prop :=
  0 <= max_suggestions <= 10 /\ 1 <= max_distance <= 5.

(** [len(word.strip()) > 50], the test of the length scan, on a string *)
Definition too_long (word : obj) : bool :=
  match word with
  | PyStr s => 50 <? len (strip s)
  | _ => false
  end.

(** A word the batch validation lets through: a string with something left
    after trimming and at most 50 characters. *)
Definition valid_word (w : obj) : Prop :=
  exists s, w = PyStr s /\ strip s <> [] /\ len s <= 50.

(** Two inputs used below: fifty letters followed by one space, and a
    batch of a thousand one-space words. *)
Definition padded_word : str := replicate 50 97%N ++ [32%N].
Definition blank_batch : list obj := replicate 1000 (PyStr [32%N]).

(** [logging.WARNING], the default [log_level] *)
Definition WARNING : Z := 30.

(** The call [Pariksa(input_data)], every other argument left at the
    default of the signature. *)
Definition new_default (input_data : obj) : result instance :=
  new input_data (PyStr (text DEFAULT_DICTIONARY)) false
      DEFAULT_MAX_SUGGESTIONS DEFAULT_MAX_DISTANCE true PyNone WARNING.

(** Whitespace throughout; the empty string counts. *)
Definition blank (s : str) : bool := forallb Py_UNICODE_ISSPACE s.

(** The whitespace pattern of a string: which positions hold whitespace. *)
Definition spaces (s : str) : list bool := Py_UNICODE_ISSPACE <$> s.

(** A batch element with [strip] applied when it is a string, as a caller
    would trim a word list before handing it over. *)
Definition trimmed (w : obj) : obj :=
  match w with
  | PyStr s => PyStr (strip s)
  | _ => w
  end.

End Pariksa.

Import Pariksa.

(** ** The suggestion engine

    The source stops after the constructor: it imports [lru_cache] and
    [difflib] but defines no distance, ranking or suggestion function.  The
    definitions of this module follow the design text. *)

Module Engine.

(** Modelled from the spec: the edit distance of section 4.2, step 1
    (Levenshtein: single-character insertions, deletions and
    substitutions); the source has no distance function.  The recursion
    compares the first characters and takes the cheapest of deleting,
    inserting and substituting (or keeping). *)
Fixpoint levenshtein (word candidate : str) : nat :=
  match word with
  | [] => length candidate
  | x :: word' =>
      (fix against (candidate : str) : nat :=
         match candidate with
         | [] => length word
         | y :: candidate' =>
             (S (levenshtein word' candidate)
                `min` S (against candidate'))
               `min` ((if decide (x = y) then 0 else 1)
                        + levenshtein word' candidate')
         end) candidate
  end%nat.

(** Modelled from the spec: the memoization cache of section 4.2, a map
    from the pair (word, candidate) to its distance; the source has only
    the unused [lru_cache] import. *)
Abbreviation cache := (gmap (str * str) nat).

(** Modelled from the spec: the memoized distance; a pair already in the
    cache is not computed again, a new pair is computed and recorded. *)
Definition distance (word candidate : str) (memo : cache) : nat * cache :=
  match memo !! (word, candidate) with
  | Some d => (d, memo)
  | None =>
      let d := levenshtein word candidate in
      (d, <[(word, candidate) := d]> memo)
  end.

(** Modelled from the spec: steps 1 and 2 of the algorithm, with the
    recommended early termination on the length difference; the source has
    no such loop.  Each candidate is measured through the cache and kept,
    with its distance, when the distance is at most [max_distance]. *)
Fixpoint within (word : str) (max_distance : Z) (candidates : list str)
    (memo : cache) : list (str * nat) * cache :=
  match candidates with
  | [] => ([], memo)
  | c :: rest =>
      if max_distance <? Z.abs (len word - len c) then
        within word max_distance rest memo
      else
        let '(d, memo1) := distance word c memo in
        let '(found, memo2) := within word max_distance rest memo1 in
        (if Z.of_nat d <=? max_distance then (c, d) :: found else found,
         memo2)
  end.

(** Modelled from the spec: the order of step 3, ascending distance with
    ties in lexicographic order of the candidate (code point by code point,
    a proper prefix first). *)
Definition rank_key (p : str * nat) : nat * str := (p.2, p.1).
Definition ranked_before (p q : str * nat) : Prop :=
  lexico (rank_key p) (rank_key q).
Definition not_after (p q : str * nat) : Prop := ¬ ranked_before q p.
Global Instance not_after_dec (p q : str * nat) : Decision (not_after p q) := _.

(** Modelled from the spec: the sort of step 3, a merge sort by that
    order. *)
Definition rank : list (str * nat) → list (str * nat) := merge_sort not_after.

(** Modelled from the spec: [suggest(word, dictionary, max_suggestions,
    max_distance)] of section 4.2, steps 1 to 4, threading the cache; the
    source defines no [suggest].  The dictionary is the word set, visited in
    the order [elements] lists it. *)
Definition suggest (word : str) (dictionary : gset str)
    (max_suggestions max_distance : Z) (memo : cache)
    : list (str * nat) * cache :=
  let '(found, memo') := within word max_distance (elements dictionary) memo in
  (take (Z.to_nat max_suggestions) (rank found), memo').

(** The same result written without the cache and without the early
    termination: what [suggest] has to return. *)
Definition closest (word : str) (max_distance : Z) (candidates : list str)
    : list (str * nat) :=
  (λ c, (c, levenshtein word c)) <$>
    filter (λ c, Z.of_nat (levenshtein word c) <= max_distance) candidates.

Definition suggestions (word : str) (dictionary : gset str)
    (max_suggestions max_distance : Z) : list (str * nat) :=
  take (Z.to_nat max_suggestions)
       (rank (closest word max_distance (elements dictionary))).

(** A cache is sound when every entry is the distance of its pair. *)
Definition cache_ok (memo : cache) : Prop :=
  ∀ a b d, memo !! (a, b) = Some d → d = levenshtein a b.

(** Edit scripts: [edits a b n] when [a] is turned into [b] by a script of
    [n] insertions, deletions and substitutions. *)
Inductive edits : str → str → nat → Prop :=
| edits_nil : edits [] [] 0
| edits_keep c a b n : edits a b n → edits (c :: a) (c :: b) n
| edits_substitute c c' a b n : edits a b n → edits (c :: a) (c' :: b) (S n)
| edits_delete c a b n : edits a b n → edits (c :: a) b (S n)
| edits_insert c a b n : edits a b n → edits a (c :: b) (S n).

(** The dictionary and the query of the design text's scenario. *)
Definition scenario_dictionary : gset str :=
  {[ text "rumah"; text "ruma"; text "rimau" ]}.

End Engine.

Import Engine.

(** ** The dictionary store

    The source names the supported extensions and the default encoding but
    opens no file.  The definitions of this module follow the design
    text. *)

Module Store.

(** Modelled from the spec: the external dictionary source of section 4.1,
    as the files that exist, by path, each with its bytes; the source reads
    no file. *)
Abbreviation files := (gmap string (list N)).

(** Modelled from the spec: the parts of loading that the design text
    leaves to the implementer (sections 6 and 9), absent from the source:
    decoding bytes as text ([None] when they cannot be decoded), the strings
    a structured file lists, and the case folding of normalization. *)
Class Formats : Type := {
  decode : list N → option str;
  json_strings : str → list str;
  casefold : str → str
}.

(** Modelled from the spec: the extension of a path, absent from the
    source: the part of the file name from its last dot, when that dot is
    neither the first nor the last character of the name. *)
Fixpoint until (sep : Ascii.ascii) (s : list Ascii.ascii)
    : list Ascii.ascii :=
  match s with
  | [] => []
  | c :: rest => if decide (c = sep) then [] else c :: until sep rest
  end.

Definition suffix (path : string) : string :=
  let name := rev (until "/"%char (rev (String.list_ascii_of_string path))) in
  let ext := until "."%char (rev name) in
  if decide (0 < length ext < length name - 1)%nat
  then String.string_of_list_ascii ("."%char :: rev ext)
  else ""%string.

(** Modelled from the spec: the line-delimited text format of section 6
    (one word per line, trimmed, blank lines skipped); the source has no
    reader. *)
Fixpoint lines (content : str) : list str :=
  match content with
  | [] => [[]]
  | c :: rest =>
      if (c =? 10)%N then [] :: lines rest
      else match lines rest with
           | line :: more => (c :: line) :: more
           | [] => [[c]]
           end
  end.

Definition read_txt (content : str) : list str :=
  filter (λ w, w ≠ []) (strip <$> lines content).

(** Modelled from the spec: the words of a decoded file, by format, and the
    normalized word set built from them (lower case unless the checker is
    case-sensitive, duplicates merged); the source has neither. *)
Definition read `{Formats} (extension : string) (content : str) : list str :=
  if decide (extension = ".txt"%string) then read_txt content
  else json_strings content.

Definition word_set `{Formats} (case_sensitive : bool) (words : list str)
    : gset str :=
  list_to_set ((λ w, if case_sensitive then w else casefold w) <$> words).

Inductive loaded : Type :=
| Loaded (words : gset str)
| DictionaryLoadError.

(** Modelled from the spec: [load(path) -> WordSet] of section 4.1, which
    the source does not define.  It fails when the path does not exist, the
    extension is unsupported, the file cannot be decoded as text, or the
    resulting set is empty. *)
Definition load `{Formats} (fs : files) (path : string)
    (case_sensitive : bool) : loaded :=
  match fs !! path with
  | None => DictionaryLoadError
  | Some bytes =>
      if decide (suffix path ∈ SUPORTED_EXTENSIONS) then
        match decode bytes with
        | None => DictionaryLoadError
        | Some content =>
            let words :=
              word_set case_sensitive (read (suffix path) content) in
            if decide (words = ∅) then DictionaryLoadError else Loaded words
        end
      else DictionaryLoadError
  end.

(** An instance for the examples: ASCII text, the double-quoted strings of
    a structured file, and the case folding of the ASCII letters. *)
Fixpoint quoted (inside : bool) (current : str) (content : str) : list str :=
  match content with
  | [] => []
  | c :: rest =>
      if (c =? 34)%N then
        if inside then rev current :: quoted false [] rest
        else quoted true [] rest
      else quoted inside (if inside then c :: current else current) rest
  end.

Definition ascii_formats : Formats := {|
  decode bytes := if forallb (λ b, b <? 128)%N bytes then Some bytes else None;
  json_strings := quoted false [];
  casefold :=
    fmap (λ c, if (65 <=? c)%N && (c <=? 90)%N then (c + 32)%N else c)
|}.

(** A small file system: a word list, a blank text file, a structured list,
    a file that is not ASCII text, and a spreadsheet (10 is the line feed,
    34 the double quote). *)
Definition example_files : files :=
  {[ "data/words.txt"%string :=
       text "Rumah" ++ 10%N :: text "ruma" ++ 10%N :: 10%N ::
       text "  rimau  " ++ [10%N];
     "data/blank.txt"%string := text "   " ++ [10%N; 10%N];
     "data/words.json"%string :=
       text "[" ++ 34%N :: text "rumah" ++ 34%N :: text ", " ++
       34%N :: text "Ruma" ++ 34%N :: text "]";
     "data/binary.txt"%string := [255; 254; 0]%N;
     "data/words.csv"%string := text "rumah,ruma" ]}.

End Store.

Import Store.

(** * Properties of the source *)

(** Membership of a literal message in one of the two message lists. *)
Ltac known_message :=
  eexists; split; [reflexivity|];
  unfold input_messages, configuration_messages; repeat constructor.

(** ** The validators on a few inputs *)

Example strip_inner_space : strip (text "  ab c  ") = text "ab c".
Proof. reflexivity. Qed.

Example word_accepted : _validate_input (PyStr (text "rumah")) = Return tt.
Proof. reflexivity. Qed.

Example long_word_rejected :
  _validate_input (PyStr (replicate 51 97%N)) =
    Raise (ValueError "Word is too long (max 50 characters)").
Proof. vm_compute; reflexivity. Qed.

Example mixed_batch_rejected :
  _validate_input (PyList [PyStr (replicate 51 97%N); PyInt 3]) =
    Raise (ValueError "All words must be non-empty strings").
Proof. vm_compute; reflexivity. Qed.

Example long_batch_word_rejected :
  _validate_input (PyList [PyStr (text "ruma"); PyStr (replicate 51 97%N)]) =
    Raise (ValueError "Some words are too long (max 50 characters)").
Proof. vm_compute; reflexivity. Qed.

Example tuple_rejected :
  _validate_input (PyTuple [PyStr (text "rumah")]) =
    Raise (ValueError "Input must be a string or list of strings").
Proof. reflexivity. Qed.

Example distance_too_small :
  new (PyStr (text "rumah")) (PyStr (text DEFAULT_DICTIONARY)) false 10 0 true
      PyNone WARNING =
    Raise (ValueError "max_distance must be between 1 and 5").
Proof. reflexivity. Qed.

(** ** [strip] *)

Lemma lstrip_length (s : str) : (length (lstrip s) <= length s)%nat.
Proof.
  induction s as [|c s IH]; simpl; [lia|].
  destruct (Py_UNICODE_ISSPACE c); simpl; lia.
Qed.

Lemma strip_length (s : str) : (length (strip s) <= length s)%nat.
Proof.
  unfold strip, rstrip. rewrite length_rev.
  etransitivity; [apply lstrip_length|].
  rewrite length_rev. apply lstrip_length.
Qed.

Lemma strip_len (s : str) : len (strip s) <= len s.
Proof. unfold len. pose proof (strip_length s). lia. Qed.

Lemma lstrip_nil (s : str) :
  lstrip s = [] <-> forallb Py_UNICODE_ISSPACE s = true.
Proof.
  induction s as [|c s IH]; simpl; [done|].
  destruct (Py_UNICODE_ISSPACE c); simpl; [done|]. split; discriminate.
Qed.

(** Trimming leaves nothing exactly when every character is whitespace. *)
Lemma strip_nil (s : str) :
  strip s = [] <-> forallb Py_UNICODE_ISSPACE s = true.
Proof.
  unfold strip, rstrip. split.
  - intros H. apply (f_equal (@rev _)) in H. rewrite rev_involutive in H.
    simpl in H. apply lstrip_nil in H.
    rewrite forallb_forall in H.
    destruct (forallb Py_UNICODE_ISSPACE s) eqn:E; [done|].
    assert (Hl : lstrip s <> []) by (rewrite lstrip_nil; congruence).
    destruct (lstrip s) as [|c t] eqn:El; [done|].
    assert (Hc : Py_UNICODE_ISSPACE c = true).
    { apply H, in_rev. rewrite rev_involutive. by left. }
    clear -El Hc. exfalso.
    induction s as [|d s IH]; simpl in El; [done|].
    destruct (Py_UNICODE_ISSPACE d) eqn:Ed; [auto|]. congruence.
  - intros H. apply lstrip_nil in H. by rewrite H.
Qed.

Lemma isspace_strip (s : str) : isspace s = true -> strip s = [].
Proof. destruct s; [done|]. intros H. by apply strip_nil. Qed.

Lemma truthy_str (s : str) : truthy (PyStr s) = false <-> s = [].
Proof. unfold truthy, len. destruct s; simpl; split; (done || lia). Qed.

(** ** The validators *)

(** Once every element passed the string test, the length scan cannot
    meet a non-string: it is [any] of [too_long]. *)
Lemma any_too_long_words (l : list obj) :
  forallb nonempty_word l = true ->
  any_too_long l = Return (existsb too_long l).
Proof.
  induction l as [|w l IH]; simpl; [done|].
  intros [Hw Hl]%andb_prop. destruct w; try discriminate Hw.
  simpl. destruct (50 <? len (strip s)); [done | auto].
Qed.

(** Whatever [_validate_input] raises is one of its seven [ValueError]s;
    the [AttributeError] of the length scan is unreachable. *)
Lemma _validate_input_raises (input_data : obj) (e : exn) :
  _validate_input input_data = Raise e -> InvalidInputError e.
Proof.
  unfold _validate_input.
  destruct (truthy input_data); cbn [negb];
    [|intros [= <-]; known_message].
  destruct input_data; try (intros [= <-]; known_message).
  - destruct (truthy (PyStr (strip s))); cbn [negb];
      [|intros [= <-]; known_message].
    destruct (50 <? len (strip s)); [intros [= <-]; known_message | done].
  - destruct (1000 <? len items); [intros [= <-]; known_message|].
    destruct (forallb nonempty_word items) eqn:Hall; cbn [negb];
      [|intros [= <-]; known_message].
    rewrite (any_too_long_words _ Hall). cbn.
    destruct (existsb too_long items); [intros [= <-]; known_message | done].
Qed.

Lemma input_not_configuration (e : exn) :
  InvalidInputError e -> ~ InvalidConfigurationError e.
Proof.
  intros (m & -> & Hm) (m' & [= <-] & Hm').
  unfold input_messages, configuration_messages in *.
  set_unfold. destruct Hm' as [->|[->|[]]]; intuition discriminate.
Qed.

Lemma _validate_configuration_ok (ms md : Z) :
  in_range ms md -> _validate_configuration ms md = Return tt.
Proof.
  intros [Hs Hd]. unfold _validate_configuration.
  destruct (Z.ltb_spec ms 0), (Z.ltb_spec 10 ms); try lia.
  destruct (Z.ltb_spec md 1), (Z.ltb_spec 5 md); try lia. done.
Qed.

Lemma _validate_configuration_raises (ms md : Z) :
  ~ in_range ms md ->
  _validate_configuration ms md =
    Raise (ValueError
      (if decide (0 <= ms <= 10)
       then "max_distance must be between 1 and 5"
       else "max_suggestions must be between 0 and 10")).
Proof.
  intros Hr. unfold in_range in Hr. unfold _validate_configuration.
  destruct (Z.ltb_spec ms 0), (Z.ltb_spec 10 ms); simpl;
    case_decide; try lia; try done.
  destruct (Z.ltb_spec md 1), (Z.ltb_spec 5 md); simpl; try done. lia.
Qed.

(** Out-of-range values are never accepted, whatever the input is. *)
Lemma new_out_of_range (d path : obj) (cs fz : bool) (ms md lv : Z)
    (lg : obj) :
  ~ in_range ms md -> ~ succeeds (new d path cs ms md fz lg lv).
Proof.
  intros Hr [i Hi]. unfold new, __init__ in Hi.
  destruct (_validate_input d); simpl in Hi; [|done].
  rewrite (_validate_configuration_raises _ _ Hr) in Hi. done.
Qed.

(** ** The constructor *)

Lemma new_input_error (d path : obj) (cs fz : bool) (ms md lv : Z)
    (lg : obj) (e : exn) :
  _validate_input d = Raise e -> new d path cs ms md fz lg lv = Raise e.
Proof. intros H. unfold new, __init__. by rewrite H. Qed.

Lemma new_valid_input (d path : obj) (cs fz : bool) (ms md lv : Z)
    (lg : obj) :
  _validate_input d = Return tt ->
  new d path cs ms md fz lg lv =
    (_validate_configuration ms md ;; Return object_new).
Proof. intros H. unfold new, __init__. by rewrite H. Qed.

(** C1 (as amended): with valid input data, a configuration with
    max_suggestions in [0,10] and max_distance in [1,5] makes the
    constructor succeed.  Any other configuration makes it fail, no value
    being clamped, and with valid input data the failure is the
    configuration error: the [ValueError] that names the first offending
    parameter. *)
Theorem new_configuration (d path : obj) (cs fz : bool) (ms md lv : Z)
    (lg : obj) :
  (_validate_input d = Return tt -> 0 <= ms <= 10 -> 1 <= md <= 5 ->
     new d path cs ms md fz lg lv = Return object_new) /\
  (~ (0 <= ms <= 10) \/ ~ (1 <= md <= 5) ->
     exists e, new d path cs ms md fz lg lv = Raise e /\
       (_validate_input d = Return tt ->
          InvalidConfigurationError e /\
          e = ValueError
                (if decide (0 <= ms <= 10)
                 then "max_distance must be between 1 and 5"
                 else "max_suggestions must be between 0 and 10"))).
Proof.
  split.
  - intros Hd Hs Hm. rewrite (new_valid_input _ _ _ _ _ _ _ _ Hd).
    by rewrite _validate_configuration_ok.
  - intros Hr. destruct (_validate_input d) as [[]|e] eqn:Hd.
    + rewrite (new_valid_input _ _ _ _ _ _ _ _ Hd).
      rewrite _validate_configuration_raises by (unfold in_range; tauto).
      eexists; split; [reflexivity|]. intros _. split; [|done].
      case_decide; known_message.
    + exists e. split; [by apply new_input_error | done].
Qed.

Lemma new_configuration_witness :
  _validate_input (PyStr (text "rumah")) = Return tt /\
  new (PyStr (text "rumah")) (PyStr (text DEFAULT_DICTIONARY)) false
      3 2 true PyNone WARNING = Return object_new /\
  (~ (0 <= 11 <= 10) \/ ~ (1 <= 2 <= 5)) /\
  exists e, new (PyStr (text "rumah")) (PyStr (text DEFAULT_DICTIONARY)) false
      11 2 true PyNone WARNING = Raise e /\
    (_validate_input (PyStr (text "rumah")) = Return tt ->
       InvalidConfigurationError e /\
       e = ValueError "max_suggestions must be between 0 and 10").
Proof.
  assert (Hd : _validate_input (PyStr (text "rumah")) = Return tt)
    by reflexivity.
  assert (Hr : ~ (0 <= 11 <= 10) \/ ~ (1 <= 2 <= 5)) by (left; lia).
  split; [exact Hd|].
  split; [apply (proj1 (new_configuration (PyStr (text "rumah"))
                   (PyStr (text DEFAULT_DICTIONARY)) false true 3 2 WARNING
                   PyNone) Hd); lia|].
  split; [exact Hr|].
  exact (proj2 (new_configuration (PyStr (text "rumah"))
                  (PyStr (text DEFAULT_DICTIONARY)) false true 11 2 WARNING
                  PyNone) Hr).
Defined.

(** C1, as stated, fails where the input data is invalid too: an empty
    word with max_suggestions = 11 is refused with the input error, which
    is not a configuration error. *)
Lemma new_out_of_range_empty_word :
  ~ (0 <= 11 <= 10) /\
  new (PyStr []) (PyStr (text DEFAULT_DICTIONARY)) false 11 2 true PyNone
      WARNING = Raise (ValueError "Input data cannot be empty") /\
  ~ exists e,
      new (PyStr []) (PyStr (text DEFAULT_DICTIONARY)) false 11 2 true PyNone
          WARNING = Raise e /\ InvalidConfigurationError e.
Proof.
  split; [lia|]. split; [reflexivity|].
  intros (e & [= <-] & He). revert He.
  apply input_not_configuration. known_message.
Qed.

(** C9: when the input data and the configuration are both invalid, the
    constructor raises the error of the input validation, and that error is
    not a configuration error. *)
Theorem input_validated_first (d path : obj) (cs fz : bool) (ms md lv : Z)
    (lg : obj) (e : exn) :
  _validate_input d = Raise e ->
  ~ (0 <= ms <= 10) \/ ~ (1 <= md <= 5) ->
  new d path cs ms md fz lg lv = Raise e /\
  InvalidInputError e /\ ~ InvalidConfigurationError e.
Proof.
  intros Hd _. split; [by apply new_input_error|].
  pose proof (_validate_input_raises _ _ Hd) as He.
  split; [done | by apply input_not_configuration].
Qed.

Lemma input_validated_first_witness :
  _validate_input (PyStr (text "   ")) =
    Raise (ValueError "Word cannot be empty or just whitespace") /\
  (~ (0 <= 3 <= 10) \/ ~ (1 <= 9 <= 5)) /\
  new (PyStr (text "   ")) (PyStr (text DEFAULT_DICTIONARY)) false 3 9 true
      PyNone WARNING =
    Raise (ValueError "Word cannot be empty or just whitespace") /\
  InvalidInputError (ValueError "Word cannot be empty or just whitespace") /\
  ~ InvalidConfigurationError
      (ValueError "Word cannot be empty or just whitespace").
Proof.
  split; [reflexivity|].
  assert (Hr : ~ (0 <= 3 <= 10) \/ ~ (1 <= 9 <= 5)) by (right; lia).
  split; [exact Hr|].
  exact (input_validated_first (PyStr (text "   "))
           (PyStr (text DEFAULT_DICTIONARY)) false true 3 9 WARNING PyNone
           _ eq_refl Hr).
Defined.

(** ** Single words *)

Lemma _validate_input_str (s : str) :
  _validate_input (PyStr s) =
    if negb (truthy (PyStr s)) then
      Raise (ValueError "Input data cannot be empty")
    else if negb (truthy (PyStr (strip s))) then
      Raise (ValueError "Word cannot be empty or just whitespace")
    else if 50 <? len (strip s) then
      Raise (ValueError "Word is too long (max 50 characters)")
    else Return tt.
Proof. reflexivity. Qed.

(** C2 (as amended): a single word that is empty, whitespace-only, or
    longer than 50 characters once trimmed is refused by the input
    validation with an input error; the constructor raises that same error
    whatever the dictionary path and the other arguments are, as the
    validation is its first step and reads no dictionary. *)
Theorem word_rejected (s : str) :
  s = [] \/ isspace s = true \/ 50 < len (strip s) ->
  exists e, _validate_input (PyStr s) = Raise e /\ InvalidInputError e /\
    forall (self : instance) (path : obj) (cs fz : bool) (ms md lv : Z)
           (lg : obj),
      __init__ self (PyStr s) path cs ms md fz lg lv = Raise e.
Proof.
  intros H.
  assert (He : exists e, _validate_input (PyStr s) = Raise e).
  { rewrite _validate_input_str. destruct H as [->|[H|H]].
    - eauto.
    - destruct (truthy (PyStr s)); cbn [negb]; [|eauto].
      rewrite (isspace_strip _ H). eauto.
    - destruct (truthy (PyStr s)); cbn [negb]; [|eauto].
      destruct (truthy (PyStr (strip s))); cbn [negb]; [|eauto].
      apply Z.ltb_lt in H as ->. eauto. }
  destruct He as [e He]. exists e. split; [done|].
  split; [by eapply _validate_input_raises|].
  intros. unfold __init__. by rewrite He.
Qed.

Lemma word_rejected_witness :
  isspace (text "   ") = true /\
  exists e, _validate_input (PyStr (text "   ")) = Raise e /\
    InvalidInputError e /\
    forall (self : instance) (path : obj) (cs fz : bool) (ms md lv : Z)
           (lg : obj),
      __init__ self (PyStr (text "   ")) path cs ms md fz lg lv = Raise e.
Proof.
  split; [reflexivity|].
  apply (word_rejected (text "   ")). right. left. reflexivity.
Defined.

(** C2, as stated, fails on a word that is longer than 50 characters only
    because of surrounding whitespace: 50 letters and a trailing space make
    51 characters, and the validation accepts them. *)
Lemma padded_word_accepted :
  50 < len padded_word /\ _validate_input (PyStr padded_word) = Return tt.
Proof. split; [reflexivity | vm_compute; reflexivity]. Qed.

(** ** Batches *)

Lemma _validate_input_list (l : list obj) :
  _validate_input (PyList l) =
    if negb (truthy (PyList l)) then
      Raise (ValueError "Input data cannot be empty")
    else if 1000 <? len l then
      Raise (ValueError "Too many words (max 1000)")
    else if negb (forallb nonempty_word l) then
      Raise (ValueError "All words must be non-empty strings")
    else
      long ← any_too_long l;
      if (long : bool) then
        Raise (ValueError "Some words are too long (max 50 characters)")
      else Return tt.
Proof. reflexivity. Qed.

Lemma valid_word_checks (w : obj) :
  valid_word w -> nonempty_word w = true /\ too_long w = false.
Proof.
  intros (s & -> & Hs & Hl). simpl. split.
  - destruct (truthy (PyStr (strip s))) eqn:E; [done|].
    by apply truthy_str in E.
  - apply Z.ltb_ge. pose proof (strip_len s). lia.
Qed.

Lemma valid_words_checks (l : list obj) :
  Forall valid_word l ->
  forallb nonempty_word l = true /\ existsb too_long l = false.
Proof.
  induction 1 as [|w l Hw _ [IH1 IH2]]; simpl; [done|].
  destruct (valid_word_checks _ Hw) as [-> ->]. done.
Qed.

(** C3 (as amended): a batch of more than 1000 words is refused with an
    input error; a batch of exactly 1000 words, each a string that is not
    empty or whitespace-only and has at most 50 characters, passes. *)
Theorem batch_size_limit (l : list obj) :
  (1000 < len l ->
     _validate_input (PyList l) =
       Raise (ValueError "Too many words (max 1000)") /\
     InvalidInputError (ValueError "Too many words (max 1000)")) /\
  (len l = 1000 -> Forall valid_word l ->
     _validate_input (PyList l) = Return tt).
Proof.
  rewrite _validate_input_list. split.
  - intros Hl. split; [|known_message].
    assert (truthy (PyList l) = true) as ->.
    { simpl. destruct (Z.eqb_spec (len l) 0); [lia | done]. }
    apply Z.ltb_lt in Hl as ->. done.
  - intros Hl [Hall Hlong]%valid_words_checks.
    assert (truthy (PyList l) = true) as ->.
    { simpl. by rewrite Hl. }
    rewrite Hl, Hall, (any_too_long_words _ Hall), Hlong. done.
Qed.

Lemma batch_size_limit_witness :
  1000 < len (replicate 1001 (PyStr (text "rumah"))) /\
  _validate_input (PyList (replicate 1001 (PyStr (text "rumah")))) =
    Raise (ValueError "Too many words (max 1000)") /\
  len (replicate 1000 (PyStr (text "rumah"))) = 1000 /\
  Forall valid_word (replicate 1000 (PyStr (text "rumah"))) /\
  _validate_input (PyList (replicate 1000 (PyStr (text "rumah")))) =
    Return tt.
Proof.
  assert (H1 : 1000 < len (replicate 1001 (PyStr (text "rumah"))))
    by (vm_compute; reflexivity).
  assert (H2 : len (replicate 1000 (PyStr (text "rumah"))) = 1000)
    by (vm_compute; reflexivity).
  assert (H3 : Forall valid_word (replicate 1000 (PyStr (text "rumah")))).
  { apply Forall_replicate. exists (text "rumah").
    split; [reflexivity|]. split; [vm_compute; discriminate|].
    vm_compute; discriminate. }
  split; [exact H1|].
  split; [exact (proj1 (proj1 (batch_size_limit _) H1))|].
  split; [exact H2|]. split; [exact H3|].
  exact (proj2 (batch_size_limit _) H2 H3).
Defined.

(** C3, as stated, fails on a batch of exactly 1000 one-space words: each
    is a non-empty string of at most 50 characters, and the batch is
    refused. *)
Lemma blank_batch_rejected :
  len blank_batch = 1000 /\
  Forall (fun w => exists s, w = PyStr s /\ s <> [] /\ len s <= 50)
         blank_batch /\
  _validate_input (PyList blank_batch) =
    Raise (ValueError "All words must be non-empty strings").
Proof.
  split; [vm_compute; reflexivity|]. split; [|vm_compute; reflexivity].
  apply Forall_replicate. exists [32%N].
  split; [reflexivity|]. split; [discriminate | vm_compute; discriminate].
Qed.

(** ** Other types *)

(** C10: an input that is neither a string nor a list makes the input
    validation raise [ValueError], so the constructor never succeeds on it;
    and a falsy input of any type, strings and lists included, is refused
    by the first test with "Input data cannot be empty". *)
Theorem other_types_rejected (d : obj) :
  (is_str d = false -> is_list d = false ->
     _validate_input d =
       Raise (ValueError
         (if truthy d then "Input must be a string or list of strings"
          else "Input data cannot be empty")) /\
     forall (path : obj) (cs fz : bool) (ms md lv : Z) (lg : obj),
       ~ succeeds (new d path cs ms md fz lg lv)) /\
  (truthy d = false ->
     _validate_input d = Raise (ValueError "Input data cannot be empty")).
Proof.
  split.
  - intros Hs Hl.
    assert (H : _validate_input d =
      Raise (ValueError
        (if truthy d then "Input must be a string or list of strings"
         else "Input data cannot be empty"))).
    { unfold _validate_input.
      destruct d; try discriminate; destruct (truthy _); reflexivity. }
    split; [exact H|].
    intros path cs fz ms md lv lg [i Hi].
    rewrite (new_input_error _ _ _ _ _ _ _ _ _ H) in Hi. discriminate.
  - intros Ht. unfold _validate_input. by rewrite Ht.
Qed.

Lemma other_types_rejected_witness :
  (is_str (PyInt 7) = false /\ is_list (PyInt 7) = false /\
   _validate_input (PyInt 7) =
     Raise (ValueError "Input must be a string or list of strings") /\
   ~ succeeds (new (PyInt 7) (PyStr (text DEFAULT_DICTIONARY)) false 3 2
                   true PyNone WARNING)) /\
  (truthy PyNone = false /\
   _validate_input PyNone = Raise (ValueError "Input data cannot be empty")) /\
  (truthy (PyInt 0) = false /\
   _validate_input (PyInt 0) =
     Raise (ValueError "Input data cannot be empty")) /\
  (truthy (PyList []) = false /\
   _validate_input (PyList []) =
     Raise (ValueError "Input data cannot be empty")).
Proof.
  split.
  { destruct (proj1 (other_types_rejected (PyInt 7)) eq_refl eq_refl)
      as [H1 H2].
    split; [reflexivity|]. split; [reflexivity|]. split; [exact H1|].
    apply H2. }
  split; [split; [reflexivity|];
          exact (proj2 (other_types_rejected PyNone) eq_refl)|].
  split; [split; [reflexivity|];
          exact (proj2 (other_types_rejected (PyInt 0)) eq_refl)|].
  split; [reflexivity|].
  exact (proj2 (other_types_rejected (PyList [])) eq_refl).
Defined.

(** ** What the constructed object holds *)

(** What the constructor does as written: its outcome does not depend on
    [dictionary_path] (nor on the case, fuzzy-matching and logging
    arguments), [__init__] hands back the object it was given with no
    attribute assigned, and the object returned by the call has no attribute
    at all.  The dictionary that the docstrings and the class constants
    describe is never loaded. *)
Theorem new_reads_no_dictionary (d path path' : obj) (cs cs' fz fz' : bool)
    (ms md lv lv' : Z) (lg lg' : obj) :
  new d path cs ms md fz lg lv = new d path' cs' ms md fz' lg' lv' /\
  (forall self i : instance,
     __init__ self d path cs ms md fz lg lv = Return i -> i = self) /\
  (forall i : instance,
     new d path cs ms md fz lg lv = Return i -> attrs i = ∅).
Proof.
  assert (H : forall self i : instance,
             __init__ self d path cs ms md fz lg lv = Return i -> i = self).
  { intros self i. unfold __init__.
    destruct (_validate_input d); [|done]. cbn.
    destruct (_validate_configuration ms md); [|done]. cbn.
    by intros [= <-]. }
  split; [reflexivity|]. split; [exact H|].
  intros i Hi. by rewrite (H _ _ Hi).
Qed.

Lemma new_reads_no_dictionary_witness :
  new (PyStr (text "rumah")) (PyStr (text DEFAULT_DICTIONARY)) false 3 2 true
      PyNone WARNING = Return object_new /\
  attrs object_new = ∅.
Proof.
  split; [reflexivity|].
  exact (proj2 (proj2 (new_reads_no_dictionary (PyStr (text "rumah"))
                  (PyStr (text DEFAULT_DICTIONARY))
                  (PyStr (text DEFAULT_DICTIONARY))
                  false false true true 3 2 WARNING WARNING PyNone PyNone))
               object_new eq_refl).
Defined.

(** C4: the source falls short of the claim.  The call [Pariksa("rumah")],
    every other argument at its default, returns a checker with every
    attribute unset: [__init__] stops after the two validations and never
    loads the dictionary that the module docstring, the [dictionary_path]
    argument and the constants [DEFAULT_DICTIONARY], [SUPORTED_EXTENSIONS]
    and [DEFAULT_ENCODING] announce, so the checker holds no word set. *)
Lemma new_holds_no_word_set :
  exists i : instance,
    new (PyStr (text "rumah")) (PyStr (text DEFAULT_DICTIONARY)) false 3 2
        true PyNone WARNING = Return i /\
    forall a : string, attrs i !! a = None.
Proof.
  exists object_new. split; [reflexivity|]. intros a. apply lookup_empty.
Qed.

(** * Properties of the suggestion engine *)

(** ** The edit distance *)

Lemma levenshtein_nil_r (a : str) : levenshtein a [] = length a.
Proof. by destruct a. Qed.

Lemma levenshtein_cons (x y : codepoint) (a b : str) :
  levenshtein (x :: a) (y :: b) =
    ((S (levenshtein a (y :: b)) `min` S (levenshtein (x :: a) b))
       `min` ((if decide (x = y) then 0 else 1) + levenshtein a b))%nat.
Proof. reflexivity. Qed.

(** The distance is the cost of some edit script ... *)
Lemma levenshtein_edits (a b : str) : edits a b (levenshtein a b).
Proof.
  revert b. induction a as [|x a IHa]; intros b.
  - simpl. induction b as [|y b IHb]; [constructor|].
    simpl. by apply edits_insert.
  - induction b as [|y b IHb].
    + rewrite levenshtein_nil_r. simpl.
      apply edits_delete. specialize (IHa []).
      by rewrite levenshtein_nil_r in IHa.
    + rewrite levenshtein_cons.
      destruct (Nat.min_spec (S (levenshtein a (y :: b)))
                  (S (levenshtein (x :: a) b))) as [[_ E1]|[_ E1]];
        rewrite E1;
        match goal with |- edits _ _ (?m `min` ?n)%nat =>
          destruct (Nat.min_spec m n) as [[_ E2]|[_ E2]]; rewrite E2
        end;
        try (by apply edits_delete); try (by apply edits_insert);
        case_decide; subst; simpl;
        by (apply edits_keep || apply edits_substitute).
Qed.

(** ... and no edit script is cheaper. *)
Lemma levenshtein_least (a b : str) (n : nat) :
  edits a b n → (levenshtein a b <= n)%nat.
Proof.
  induction 1 as [|c a b n _ IH|c c' a b n _ IH|c a b n _ IH|c a b n _ IH].
  - done.
  - rewrite levenshtein_cons. rewrite decide_True by done. lia.
  - rewrite levenshtein_cons. case_decide; lia.
  - destruct b as [|y b].
    + rewrite levenshtein_nil_r in *. cbn [length]. lia.
    + rewrite levenshtein_cons. lia.
  - destruct a as [|x a].
    + cbn [levenshtein length] in *. lia.
    + rewrite levenshtein_cons. lia.
Qed.

(** The distance is at least the difference of the lengths, which is what
    makes the early termination sound. *)
Lemma levenshtein_length_difference (a b : str) :
  Z.abs (len a - len b) <= Z.of_nat (levenshtein a b).
Proof.
  unfold len.
  enough (length a <= length b + levenshtein a b ∧
          length b <= length a + levenshtein a b)%nat by lia.
  generalize (levenshtein_edits a b). generalize (levenshtein a b).
  induction 1; simpl; lia.
Qed.

(** ** The cache *)

Lemma cache_ok_empty : cache_ok ∅.
Proof. intros a b d. by rewrite lookup_empty. Qed.

(** Through a sound cache the memoized distance is the distance, and the
    cache it leaves is sound and only grows. *)
Lemma distance_sound (word candidate : str) (memo : cache) :
  cache_ok memo →
  (distance word candidate memo).1 = levenshtein word candidate ∧
  cache_ok (distance word candidate memo).2 ∧
  memo ⊆ (distance word candidate memo).2.
Proof.
  intros Hok. unfold distance.
  destruct (memo !! (word, candidate)) as [d|] eqn:E; simpl.
  - split; [by apply Hok | done].
  - split; [done|]. split; [|by apply insert_subseteq].
    intros a b d.
    destruct (decide ((word, candidate) = (a, b))) as [[= <- <-]|Hne].
    + rewrite lookup_insert_eq. by intros [= <-].
    + rewrite lookup_insert_ne by done. apply Hok.
Qed.

(** A pair once measured is answered from the cache, which is then left
    as it is. *)
Lemma distance_cached (word candidate : str) (memo : cache) :
  let memo1 := (distance word candidate memo).2 in
  memo1 !! (word, candidate) = Some (distance word candidate memo).1 ∧
  distance word candidate memo1 = ((distance word candidate memo).1, memo1).
Proof.
  unfold distance.
  destruct (memo !! (word, candidate)) as [d|] eqn:E; simpl.
  - by rewrite E.
  - by rewrite lookup_insert_eq.
Qed.

Lemma closest_cons (word c : str) (md : Z) (rest : list str) :
  closest word md (c :: rest) =
    if decide (Z.of_nat (levenshtein word c) <= md)
    then (c, levenshtein word c) :: closest word md rest
    else closest word md rest.
Proof.
  unfold closest. rewrite filter_cons. by case_decide.
Qed.

(** The loop of steps 1 and 2 computes [closest]: the cache changes no
    distance and the early termination drops no candidate in range. *)
Lemma within_closest (word : str) (md : Z) (candidates : list str)
    (memo : cache) :
  cache_ok memo →
  (within word md candidates memo).1 = closest word md candidates ∧
  cache_ok (within word md candidates memo).2 ∧
  memo ⊆ (within word md candidates memo).2.
Proof.
  revert memo. induction candidates as [|c rest IH]; intros memo Hok.
  - done.
  - rewrite closest_cons. cbn [within].
    pose proof (levenshtein_length_difference word c) as Hdiff.
    destruct (Z.ltb_spec md (Z.abs (len word - len c))) as [Hskip|Hkeep].
    + rewrite decide_False by lia. by apply IH.
    + destruct (distance_sound word c memo Hok) as (Hd & Hok1 & Hsub1).
      destruct (distance word c memo) as [d memo1]. simpl in Hd, Hok1, Hsub1.
      destruct (IH memo1 Hok1) as (Hf & Hok2 & Hsub2).
      destruct (within word md rest memo1) as [found memo2].
      simpl in Hf, Hok2, Hsub2 |- *. subst d found.
      split; [|split; [done | by etrans]].
      destruct (Z.leb_spec (Z.of_nat (levenshtein word c)) md);
        case_decide; (done || lia).
Qed.

(** With a sound cache, [suggest] returns [suggestions]. *)
Lemma suggest_suggestions (word : str) (dictionary : gset str) (ms md : Z)
    (memo : cache) :
  cache_ok memo →
  (suggest word dictionary ms md memo).1 = suggestions word dictionary ms md ∧
  cache_ok (suggest word dictionary ms md memo).2 ∧
  memo ⊆ (suggest word dictionary ms md memo).2.
Proof.
  intros Hok. unfold suggest, suggestions.
  destruct (within_closest word md (elements dictionary) memo Hok)
    as (Hf & Hok' & Hsub).
  destruct (within word md (elements dictionary) memo) as [found memo'].
  simpl in *. by subst found.
Qed.

(** ** The ranking order *)

Lemma ranked_before_spec (p q : str * nat) :
  ranked_before p q ↔ (p.2 < q.2)%nat ∨ p.2 = q.2 ∧ lexico p.1 q.1.
Proof. done. Qed.

Lemma rank_key_inj (p q : str * nat) : rank_key p = rank_key q → p = q.
Proof. destruct p, q. unfold rank_key. simpl. congruence. Qed.

Global Instance ranked_before_strict : StrictOrder ranked_before.
Proof.
  pose proof (_ : StrictOrder (@lexico (nat * list N) _)) as [Hi Ht].
  split.
  - intros p. apply (Hi (rank_key p)).
  - intros p q r. apply (Ht (rank_key p) (rank_key q) (rank_key r)).
Qed.

Lemma ranked_trichotomy (p q : str * nat) :
  ranked_before p q ∨ p = q ∨ ranked_before q p.
Proof.
  destruct (trichotomy (@lexico (nat * list N) _) (rank_key p) (rank_key q))
    as [H|[H|H]];
    [by left | right; left; by apply rank_key_inj | by right; right].
Qed.

Global Instance not_after_total : Total not_after.
Proof.
  intros p q. unfold not_after.
  destruct (ranked_trichotomy p q) as [H|[->|H]].
  - left. intros H'. apply (irreflexivity ranked_before p). by etrans.
  - left. apply irreflexivity, _.
  - right. intros H'. apply (irreflexivity ranked_before p). by etrans.
Qed.

Global Instance not_after_trans : Transitive not_after.
Proof.
  intros p q r Hpq Hqr Hrp. unfold not_after in *.
  destruct (ranked_trichotomy q p) as [H|[->|H]]; [done..|].
  apply Hqr. by etrans.
Qed.

(** On distinct entries the weak order is the strict one. *)
Lemma not_after_strict (p q : str * nat) :
  not_after p q → p ≠ q → ranked_before p q.
Proof.
  intros Hpq Hne. by destruct (ranked_trichotomy p q) as [H|[->|H]].
Qed.

Lemma StronglySorted_strict (l : list (str * nat)) :
  NoDup l → StronglySorted not_after l → StronglySorted ranked_before l.
Proof.
  induction 2 as [|p l Hl IH Hp]; [constructor|].
  apply NoDup_cons in H as [Hin Hnd].
  constructor; [by apply IH|].
  rewrite Forall_forall in Hp |- *. intros q Hq.
  apply not_after_strict; [by apply Hp|].
  intros ->. done.
Qed.

Lemma StronglySorted_take {A} (R : relation A) (n : nat) (l : list A) :
  StronglySorted R l → StronglySorted R (take n l).
Proof.
  intros H. rewrite <-(take_drop n l) in H.
  by apply StronglySorted_app_1_l in H.
Qed.

(** ** The candidates in range *)

Lemma elem_of_closest (word : str) (md : Z) (candidates : list str)
    (c : str) (d : nat) :
  (c, d) ∈ closest word md candidates ↔
    c ∈ candidates ∧ d = levenshtein word c ∧ Z.of_nat d <= md.
Proof.
  unfold closest. rewrite list_elem_of_fmap. split.
  - intros (c' & [= -> ->] & [H1 H2]%list_elem_of_filter). done.
  - intros (Hc & -> & Hd). exists c. split; [done|].
    by apply list_elem_of_filter.
Qed.

Lemma NoDup_closest (word : str) (md : Z) (candidates : list str) :
  NoDup candidates → NoDup (closest word md candidates).
Proof.
  intros H. unfold closest. apply NoDup_fmap_2.
  - intros c c' [= ->]. done.
  - by apply NoDup_filter.
Qed.

(** The ranked list: the candidates in range, each once, in strictly
    ascending order. *)
Lemma rank_closest (word : str) (md : Z) (dictionary : gset str) :
  let ranked := rank (closest word md (elements dictionary)) in
  ranked ≡ₚ closest word md (elements dictionary) ∧
  NoDup ranked ∧ StronglySorted ranked_before ranked.
Proof.
  set (found := closest word md (elements dictionary)). simpl.
  assert (Hp : rank found ≡ₚ found) by apply merge_sort_Permutation.
  assert (Hn : NoDup (rank found)).
  { rewrite Hp. apply NoDup_closest, NoDup_elements. }
  split; [done|]. split; [done|].
  apply StronglySorted_strict; [done|].
  apply StronglySorted_merge_sort; apply _.
Qed.

Global Instance not_after_antisymm : AntiSymm (=) not_after.
Proof.
  intros p q Hpq Hqp. by destruct (ranked_trichotomy p q) as [H|[->|H]].
Qed.

(** The ranking does not depend on the order in which the candidates are
    met, so neither does the result depend on how the word set is
    enumerated. *)
Lemma rank_order_independent (l1 l2 : list (str * nat)) :
  l1 ≡ₚ l2 → rank l1 = rank l2.
Proof.
  intros Hp. apply (StronglySorted_unique not_after).
  - apply StronglySorted_merge_sort; apply _.
  - apply StronglySorted_merge_sort; apply _.
  - unfold rank. by rewrite !merge_sort_Permutation.
Qed.

Lemma suggestions_order_independent (word : str) (dictionary : gset str)
    (ms md : Z) (candidates : list str) :
  candidates ≡ₚ elements dictionary →
  take (Z.to_nat ms) (rank (closest word md candidates)) =
    suggestions word dictionary ms md.
Proof.
  intros Hp. unfold suggestions. f_equal. apply rank_order_independent.
  unfold closest. by rewrite Hp.
Qed.

(** ** The suggestions *)

Lemma suggestions_spec (word : str) (dictionary : gset str) (ms md : Z) :
  let result := suggestions word dictionary ms md in
  (∀ c d, (c, d) ∈ result →
     c ∈ dictionary ∧ d = levenshtein word c ∧ Z.of_nat d <= md) ∧
  StronglySorted ranked_before result ∧
  (length result <= Z.to_nat ms)%nat.
Proof.
  simpl. unfold suggestions.
  destruct (rank_closest word md dictionary) as (Hp & _ & Hs).
  split; [|split].
  - intros c d Hin%subseteq_take. rewrite Hp in Hin.
    apply elem_of_closest in Hin as (Hc & Hd & Hle).
    by apply elem_of_elements in Hc.
  - by apply StronglySorted_take.
  - rewrite length_take. lia.
Qed.

(** C5: for every query word and dictionary, through any sound cache,
    [suggest] returns pairs (candidate, distance) in which the candidate is
    a dictionary word, the distance is its Levenshtein distance to the
    query and is at most max_distance; the pairs are in ascending distance,
    ties in strictly ascending lexicographic order of the candidate, so the
    order is determined; and there are at most max_suggestions of them. *)
Theorem suggest_ranked (word : str) (dictionary : gset str) (ms md : Z)
    (memo : cache) :
  cache_ok memo → 0 <= ms →
  let result := (suggest word dictionary ms md memo).1 in
  (∀ c d, (c, d) ∈ result →
     c ∈ dictionary ∧ d = levenshtein word c ∧ Z.of_nat d <= md) ∧
  StronglySorted
    (λ p q, (p.2 < q.2)%nat ∨ p.2 = q.2 ∧ lexico p.1 q.1) result ∧
  len result <= ms.
Proof.
  intros Hok Hms. simpl.
  destruct (suggest_suggestions word dictionary ms md memo Hok) as [-> _].
  destruct (suggestions_spec word dictionary ms md) as (Hin & Hs & Hl).
  split; [done|]. split; [done|]. unfold len. lia.
Qed.

Lemma suggest_ranked_witness :
  cache_ok ∅ ∧ 0 <= 3 ∧
  (suggest (text "rma") scenario_dictionary 3 2 ∅).1 =
    [(text "ruma", 1%nat); (text "rimau", 2%nat); (text "rumah", 2%nat)] ∧
  (∀ c d, (c, d) ∈ (suggest (text "rma") scenario_dictionary 3 2 ∅).1 →
     c ∈ scenario_dictionary ∧ d = levenshtein (text "rma") c ∧
     Z.of_nat d <= 2) ∧
  StronglySorted
    (λ p q, (p.2 < q.2)%nat ∨ p.2 = q.2 ∧ lexico p.1 q.1)
    (suggest (text "rma") scenario_dictionary 3 2 ∅).1 ∧
  len (suggest (text "rma") scenario_dictionary 3 2 ∅).1 <= 3.
Proof.
  assert (H0 : 0 <= 3) by lia.
  split; [exact cache_ok_empty|]. split; [exact H0|].
  split; [vm_compute; reflexivity|].
  exact (suggest_ranked (text "rma") scenario_dictionary 3 2 ∅
           cache_ok_empty H0).
Defined.

(** C6: [suggest] is a total function, so it has no failure to report; it
    returns the empty sequence when max_suggestions is 0, whatever the word,
    the dictionary and the cache are, and when no dictionary word is within
    max_distance of the query. *)
Theorem suggest_nothing (word : str) (dictionary : gset str) (ms md : Z)
    (memo : cache) :
  (ms = 0 → (suggest word dictionary ms md memo).1 = []) ∧
  (cache_ok memo →
   (∀ c, c ∈ dictionary → md < Z.of_nat (levenshtein word c)) →
   (suggest word dictionary ms md memo).1 = []).
Proof.
  split.
  - intros ->. unfold suggest.
    by destruct (within word md (elements dictionary) memo).
  - intros Hok Hfar.
    destruct (suggest_suggestions word dictionary ms md memo Hok) as [-> _].
    unfold suggestions.
    assert (closest word md (elements dictionary) = []) as ->.
    { destruct (closest word md (elements dictionary)) as [|[c d] l] eqn:E;
        [done|].
      assert (Hin : (c, d) ∈ closest word md (elements dictionary))
        by (rewrite E; left).
      apply elem_of_closest in Hin as (Hc%elem_of_elements & -> & Hle).
      specialize (Hfar c Hc). lia. }
    apply take_nil.
Qed.

Lemma suggest_nothing_witness :
  (suggest (text "rma") scenario_dictionary 0 2 ∅).1 = [] ∧
  cache_ok ∅ ∧
  (∀ c, c ∈ scenario_dictionary →
        2 < Z.of_nat (levenshtein (text "zzzz") c)) ∧
  (suggest (text "zzzz") scenario_dictionary 3 2 ∅).1 = [].
Proof.
  assert (Hfar : ∀ c, c ∈ scenario_dictionary →
                      2 < Z.of_nat (levenshtein (text "zzzz") c)).
  { intros c Hc. unfold scenario_dictionary in Hc.
    apply elem_of_union in Hc as [Hc|Hc];
      [apply elem_of_union in Hc as [Hc|Hc]|];
      apply elem_of_singleton in Hc; subst c; vm_compute; reflexivity. }
  split; [exact (proj1 (suggest_nothing (text "rma") scenario_dictionary
                          0 2 ∅) eq_refl)|].
  split; [exact cache_ok_empty|]. split; [exact Hfar|].
  exact (proj2 (suggest_nothing (text "zzzz") scenario_dictionary 3 2 ∅)
               cache_ok_empty Hfar).
Defined.

(** C8: calling [suggest] a second time with the same word, dictionary and
    limits, on the cache the first call left, returns the same sequence;
    more generally the sequence is the same through every sound cache, so
    memoization changes no result. *)
Theorem suggest_repeatable (word : str) (dictionary : gset str) (ms md : Z)
    (memo : cache) :
  cache_ok memo →
  (suggest word dictionary ms md
           (suggest word dictionary ms md memo).2).1 =
    (suggest word dictionary ms md memo).1 ∧
  ∀ memo' : cache, cache_ok memo' →
    (suggest word dictionary ms md memo').1 =
      (suggest word dictionary ms md memo).1.
Proof.
  intros Hok.
  destruct (suggest_suggestions word dictionary ms md memo Hok)
    as (Hr & Hok1 & _).
  split.
  - destruct (suggest_suggestions word dictionary ms md _ Hok1) as [-> _].
    by rewrite Hr.
  - intros memo' Hok'.
    destruct (suggest_suggestions word dictionary ms md memo' Hok')
      as [-> _].
    by rewrite Hr.
Qed.

Lemma suggest_repeatable_witness :
  cache_ok ∅ ∧
  (suggest (text "rma") scenario_dictionary 3 2
           (suggest (text "rma") scenario_dictionary 3 2 ∅).2).1 =
    (suggest (text "rma") scenario_dictionary 3 2 ∅).1.
Proof.
  split; [exact cache_ok_empty|].
  exact (proj1 (suggest_repeatable (text "rma") scenario_dictionary 3 2 ∅
                  cache_ok_empty)).
Defined.

(** * Properties of the dictionary store *)

Lemma load_loaded `{Formats} (fs : files) (path : string) (cs : bool)
    (words : gset str) :
  load fs path cs = Loaded words ↔
    ∃ bytes content,
      fs !! path = Some bytes ∧ suffix path ∈ SUPORTED_EXTENSIONS ∧
      decode bytes = Some content ∧
      words = word_set cs (read (suffix path) content) ∧ words ≠ ∅.
Proof.
  unfold load. split.
  - destruct (fs !! path) as [bytes|]; [|done].
    case_decide as Hext; [|done].
    destruct (decode bytes) as [content|] eqn:Hdec; [|done].
    case_decide as Hempty; [done|]. intros [= <-]. eauto 10.
  - intros (bytes & content & -> & Hext & -> & -> & Hne).
    rewrite decide_True by done. by rewrite decide_False.
Qed.

(** C7: [load] fails with [DictionaryLoadError] exactly when the path does
    not exist, the extension of the path is not [.txt] or [.json], the bytes
    of the file do not decode as text, or the word set read from the file is
    empty; and what it returns otherwise is the non-empty normalized word
    set of the whole file. *)
Theorem load_fails_exactly `{Formats} (fs : files) (path : string)
    (cs : bool) :
  (load fs path cs = DictionaryLoadError ↔
     fs !! path = None ∨
     suffix path ∉ SUPORTED_EXTENSIONS ∨
     (∃ bytes, fs !! path = Some bytes ∧ decode bytes = None) ∨
     (∃ bytes content, fs !! path = Some bytes ∧
        decode bytes = Some content ∧
        word_set cs (read (suffix path) content) = ∅)) ∧
  (∀ words, load fs path cs = Loaded words →
     words ≠ ∅ ∧
     ∃ bytes content, fs !! path = Some bytes ∧
       decode bytes = Some content ∧
       words = word_set cs (read (suffix path) content)).
Proof.
  split.
  - unfold load. split.
    + destruct (fs !! path) as [bytes|]; [|by left].
      case_decide as Hext; [|by right; left].
      destruct (decode bytes) as [content|] eqn:Hdec;
        [|right; right; left; eauto].
      case_decide as Hempty; [|done].
      intros _. right; right; right. eauto.
    + intros [->|[Hext|[(bytes & -> & ->)|(bytes & content & -> & -> & ->)]]].
      * done.
      * destruct (fs !! path); [|done]. by rewrite decide_False.
      * by case_decide.
      * case_decide; [|done]. by rewrite decide_True.
  - intros words (bytes & content & ? & ? & ? & ? & ?)%load_loaded.
    eauto 10.
Qed.

Lemma load_fails_exactly_witness :
  @load ascii_formats example_files "data/none.txt" false
    = DictionaryLoadError ∧
  @load ascii_formats example_files "data/words.csv" false
    = DictionaryLoadError ∧
  @load ascii_formats example_files "data/binary.txt" false
    = DictionaryLoadError ∧
  @load ascii_formats example_files "data/blank.txt" false
    = DictionaryLoadError ∧
  @load ascii_formats example_files "data/words.txt" false
    = Loaded {[ text "rumah"; text "ruma"; text "rimau" ]} ∧
  ({[ text "rumah"; text "ruma"; text "rimau" ]} : gset str) ≠ ∅.
Proof.
  split; [apply (proj1 (@load_fails_exactly ascii_formats example_files
                          "data/none.txt" false));
          left; vm_compute; reflexivity|].
  split; [apply (proj1 (@load_fails_exactly ascii_formats example_files
                          "data/words.csv" false));
          right; left;
          apply (bool_decide_unpack
                   (suffix "data/words.csv" ∉ SUPORTED_EXTENSIONS));
          vm_compute; exact I|].
  split; [apply (proj1 (@load_fails_exactly ascii_formats example_files
                          "data/binary.txt" false));
          right; right; left; eexists; split; vm_compute; reflexivity|].
  split; [apply (proj1 (@load_fails_exactly ascii_formats example_files
                          "data/blank.txt" false));
          right; right; right; do 2 eexists;
          split; [vm_compute; reflexivity|];
          split; vm_compute; reflexivity|].
  assert (Hl : @load ascii_formats example_files "data/words.txt" false
               = Loaded {[ text "rumah"; text "ruma"; text "rimau" ]})
    by (vm_compute; reflexivity).
  split; [exact Hl|].
  exact (proj1 (proj2 (@load_fails_exactly ascii_formats example_files
                         "data/words.txt" false) _ Hl)).
Defined.

(** * Further properties of the validators *)

(** ** The two checks on a word *)

Lemma nonempty_word_spec (w : obj) :
  nonempty_word w = true <-> exists s, w = PyStr s /\ strip s <> [].
Proof.
  split.
  - destruct w; try discriminate. simpl. intros H. exists s. split; [done|].
    intros E. rewrite E in H. discriminate.
  - intros (s & -> & Hs). simpl.
    destruct (truthy (PyStr (strip s))) eqn:E; [done|].
    by apply truthy_str in E.
Qed.

Lemma strip_nonempty (s : str) : strip s <> [] -> truthy (PyStr s) = true.
Proof.
  intros Hs. destruct (truthy (PyStr s)) eqn:E; [done|].
  apply truthy_str in E as ->. done.
Qed.

(** A word passes exactly when both checks of the batch scan pass on it. *)
Lemma word_checks (s : str) :
  _validate_input (PyStr s) = Return tt <->
    nonempty_word (PyStr s) = true /\ too_long (PyStr s) = false.
Proof.
  rewrite _validate_input_str.
  change (nonempty_word (PyStr s)) with (truthy (PyStr (strip s))).
  change (too_long (PyStr s)) with (50 <? len (strip s)).
  destruct (truthy (PyStr (strip s))) eqn:E; cbn [negb].
  - rewrite strip_nonempty; cbn [negb].
    + destruct (50 <? len (strip s));
        [split; [discriminate | intros [_ ?]; discriminate] | done].
    + intros E'. rewrite E' in E. discriminate.
  - destruct (truthy (PyStr s)); cbn [negb];
      (split; [discriminate | intros [? _]; discriminate]).
Qed.

(** The batch path without the monad: the four tests in the order the
    source makes them. *)
Lemma _validate_input_list_tests (l : list obj) :
  _validate_input (PyList l) =
    if len l =? 0 then
      Raise (ValueError "Input data cannot be empty")
    else if 1000 <? len l then
      Raise (ValueError "Too many words (max 1000)")
    else if negb (forallb nonempty_word l) then
      Raise (ValueError "All words must be non-empty strings")
    else if existsb too_long l then
      Raise (ValueError "Some words are too long (max 50 characters)")
    else Return tt.
Proof.
  rewrite _validate_input_list. simpl truthy.
  destruct (len l =? 0); cbn [negb]; [done|].
  destruct (1000 <? len l); [done|].
  destruct (forallb nonempty_word l) eqn:Hall; cbn [negb]; [|done].
  by rewrite (any_too_long_words _ Hall).
Qed.

Lemma existsb_false_Forall {A} (f : A -> bool) (l : list A) :
  existsb f l = false <-> Forall (fun x => f x = false) l.
Proof.
  induction l as [|x l IH]; simpl; [by split; [constructor|]|].
  rewrite orb_false_iff, IH, Forall_cons. done.
Qed.

Lemma forallb_true_Forall {A} (f : A -> bool) (l : list A) :
  forallb f l = true <-> Forall (fun x => f x = true) l.
Proof.
  induction l as [|x l IH]; simpl; [by split; [constructor|]|].
  rewrite andb_true_iff, IH, Forall_cons. done.
Qed.

(** The batch passes exactly when it has between 1 and 1000 elements that
    all pass both checks. *)
Lemma batch_checks (l : list obj) :
  _validate_input (PyList l) = Return tt <->
    0 < len l <= 1000 /\
    Forall (fun w => nonempty_word w = true /\ too_long w = false) l.
Proof.
  rewrite _validate_input_list_tests, Forall_and.
  rewrite <- forallb_true_Forall, <- existsb_false_Forall.
  assert (0 <= len l) by (unfold len; lia).
  destruct (Z.eqb_spec (len l) 0); [split; [done | lia]|].
  destruct (Z.ltb_spec 1000 (len l)); [split; [done | lia]|].
  destruct (forallb nonempty_word l); cbn [negb];
    [|split; [done | intros (_ & ? & _); done]].
  destruct (existsb too_long l); [split; [done | intros (_ & _ & ?); done]|].
  split; [intros _; split; [lia | done] | done].
Qed.

(** ** Acceptance, exactly *)

(** X1: a single word is accepted exactly when something is left of it
    after trimming and what is left has at most 50 characters; the length
    before trimming plays no part. *)
Theorem word_accepted_iff (s : str) :
  _validate_input (PyStr s) = Return tt <->
    strip s <> [] /\ len (strip s) <= 50.
Proof.
  rewrite word_checks, nonempty_word_spec. simpl too_long.
  rewrite Z.ltb_ge. split.
  - intros [(s' & [= <-] & Hs) Hl]. done.
  - intros [Hs Hl]. eauto.
Qed.

Lemma word_accepted_iff_witness :
  (strip (text "  rumah ") <> [] /\ len (strip (text "  rumah ")) <= 50) /\
  _validate_input (PyStr (text "  rumah ")) = Return tt.
Proof.
  assert (H : strip (text "  rumah ") <> [] /\
              len (strip (text "  rumah ")) <= 50).
  { split; [vm_compute; discriminate | vm_compute; discriminate]. }
  split; [exact H|].
  exact (proj2 (word_accepted_iff (text "  rumah ")) H).
Defined.

(** X2: a batch is accepted exactly when it is not empty, has at most 1000
    elements, and each element is a string that the validator accepts as a
    single word. *)
Theorem batch_accepted_iff (l : list obj) :
  _validate_input (PyList l) = Return tt <->
    l <> [] /\ len l <= 1000 /\
    Forall (fun w => is_str w = true /\ _validate_input w = Return tt) l.
Proof.
  rewrite batch_checks.
  assert (Hlen : 0 < len l <-> l <> []).
  { unfold len. destruct l; simpl; split; (done || lia). }
  assert (Hw : forall w,
             (nonempty_word w = true /\ too_long w = false) <->
             (is_str w = true /\ _validate_input w = Return tt)).
  { intros w. destruct w; try (simpl; split; intros [? ?]; discriminate).
    rewrite word_checks. simpl is_str. tauto. }
  split.
  - intros [[H0 H1] Hall]. split; [by apply Hlen|]. split; [done|].
    eapply Forall_impl; [exact Hall|]. intros w. apply Hw.
  - intros (H0 & H1 & Hall). split; [split; [by apply Hlen | done]|].
    eapply Forall_impl; [exact Hall|]. intros w. apply Hw.
Qed.

Lemma batch_accepted_iff_witness :
  ([PyStr (text "rumah"); PyStr (text " ruma ")] <> [] /\
   len [PyStr (text "rumah"); PyStr (text " ruma ")] <= 1000 /\
   Forall (fun w => is_str w = true /\ _validate_input w = Return tt)
          [PyStr (text "rumah"); PyStr (text " ruma ")]) /\
  _validate_input (PyList [PyStr (text "rumah"); PyStr (text " ruma ")]) =
    Return tt.
Proof.
  assert (H : [PyStr (text "rumah"); PyStr (text " ruma ")] <> [] /\
              len [PyStr (text "rumah"); PyStr (text " ruma ")] <= 1000 /\
              Forall (fun w => is_str w = true /\
                               _validate_input w = Return tt)
                     [PyStr (text "rumah"); PyStr (text " ruma ")]).
  { split; [discriminate|]. split; [vm_compute; discriminate|].
    repeat constructor. }
  split; [exact H|].
  exact (proj2 (batch_accepted_iff _) H).
Defined.

(** ** The constructor, exactly *)

Lemma _validate_configuration_iff (ms md : Z) :
  _validate_configuration ms md = Return tt <-> in_range ms md.
Proof.
  split; [|apply _validate_configuration_ok].
  intros H. destruct (decide (in_range ms md)) as [|Hr]; [done|].
  rewrite (_validate_configuration_raises _ _ Hr) in H. discriminate.
Qed.

Lemma new_outcome (d path : obj) (cs fz : bool) (ms md lv : Z) (lg : obj) :
  new d path cs ms md fz lg lv =
    match _validate_input d with
    | Raise e => Raise e
    | Return _ =>
        match _validate_configuration ms md with
        | Raise e => Raise e
        | Return _ => Return object_new
        end
    end.
Proof.
  unfold new, __init__. destruct (_validate_input d); [|done]. cbn.
  by destruct (_validate_configuration ms md).
Qed.

(** X3: the constructor call returns an object exactly when the input data
    passes the input validation, max_suggestions is in [0,10] and
    max_distance is in [1,5]; a checker that exists was therefore built from
    validated input and limits. *)
Theorem new_succeeds_iff (d path : obj) (cs fz : bool) (ms md lv : Z)
    (lg : obj) :
  succeeds (new d path cs ms md fz lg lv) <->
    _validate_input d = Return tt /\ 0 <= ms <= 10 /\ 1 <= md <= 5.
Proof.
  rewrite new_outcome. unfold succeeds. split.
  - intros [i Hi]. destruct (_validate_input d) as [[]|]; [|done].
    split; [done|]. apply _validate_configuration_iff.
    by destruct (_validate_configuration ms md) as [[]|].
  - intros (-> & Hr). apply _validate_configuration_iff in Hr as ->. eauto.
Qed.

Lemma new_succeeds_iff_witness :
  (_validate_input (PyStr (text "rumah")) = Return tt /\
   0 <= 10 <= 10 /\ 1 <= 1 <= 5) /\
  succeeds (new (PyStr (text "rumah")) (PyStr (text DEFAULT_DICTIONARY))
                true 10 1 false PyNone WARNING).
Proof.
  assert (H : _validate_input (PyStr (text "rumah")) = Return tt /\
              0 <= 10 <= 10 /\ 1 <= 1 <= 5)
    by (split; [reflexivity | lia]).
  split; [exact H|].
  exact (proj2 (new_succeeds_iff (PyStr (text "rumah"))
                  (PyStr (text DEFAULT_DICTIONARY)) true false 10 1 WARNING
                  PyNone) H).
Defined.

(** X4: with integer limits, as the signature declares them, and input
    data that is a string, a list whose elements may be of any type, or any
    other object whose truth test returns, the only exception the
    constructor call lets out is a [ValueError] carrying one of the nine
    messages of the two validators; the [strip] of the length scan never
    meets a non-string, so no [AttributeError] escapes. *)
Theorem new_raises_value_error (d path : obj) (cs fz : bool) (ms md lv : Z)
    (lg : obj) (e : exn) :
  new d path cs ms md fz lg lv = Raise e ->
  exists msg, e = ValueError msg /\
    msg ∈ input_messages ++ configuration_messages.
Proof.
  rewrite new_outcome.
  destruct (_validate_input d) as [[]|e'] eqn:Hd.
  - destruct (decide (in_range ms md)) as [Hr|Hr].
    + by rewrite _validate_configuration_ok.
    + rewrite (_validate_configuration_raises _ _ Hr). intros [= <-].
      eexists; split; [reflexivity|]. apply elem_of_app. right.
      unfold configuration_messages. case_decide; repeat constructor.
  - intros [= <-]. apply _validate_input_raises in Hd as (msg & -> & Hm).
    exists msg. split; [done|]. apply elem_of_app. by left.
Qed.

Lemma new_raises_value_error_witness :
  new (PyList [PyStr (text "ruma"); PyInt 3]) PyNone false 3 2 true PyNone
      WARNING = Raise (ValueError "All words must be non-empty strings") /\
  exists msg, ValueError "All words must be non-empty strings" =
                ValueError msg /\
    msg ∈ input_messages ++ configuration_messages.
Proof.
  assert (H : new (PyList [PyStr (text "ruma"); PyInt 3]) PyNone false 3 2
                  true PyNone WARNING =
              Raise (ValueError "All words must be non-empty strings"))
    by reflexivity.
  split; [exact H|].
  exact (new_raises_value_error _ _ _ _ _ _ _ _ _ H).
Defined.

(** X5: the defaults of the signature are themselves a valid configuration.
    The call with only [input_data] given succeeds exactly when the input
    passes the input validation, and when it fails the error is the input
    error, never a configuration error. *)
Theorem new_default_input_only (d : obj) :
  (succeeds (new_default d) <-> _validate_input d = Return tt) /\
  (forall e, new_default d = Raise e ->
     _validate_input d = Raise e /\ ~ InvalidConfigurationError e).
Proof.
  unfold new_default. rewrite new_outcome.
  assert (Hc : _validate_configuration DEFAULT_MAX_SUGGESTIONS
                 DEFAULT_MAX_DISTANCE = Return tt) by reflexivity.
  rewrite Hc. unfold succeeds. split.
  - destruct (_validate_input d) as [[]|e].
    + split; eauto.
    + split; [intros [i Hi]; discriminate | discriminate].
  - intros e. destruct (_validate_input d) as [[]|e'] eqn:Hd; [done|].
    intros [= <-]. split; [done|].
    by apply input_not_configuration, _validate_input_raises with d.
Qed.

Lemma new_default_input_only_witness :
  _validate_input (PyStr (text "rumah")) = Return tt /\
  succeeds (new_default (PyStr (text "rumah"))) /\
  new_default (PyList []) = Raise (ValueError "Input data cannot be empty") /\
  _validate_input (PyList []) =
    Raise (ValueError "Input data cannot be empty") /\
  ~ InvalidConfigurationError (ValueError "Input data cannot be empty").
Proof.
  assert (H1 : _validate_input (PyStr (text "rumah")) = Return tt)
    by reflexivity.
  assert (H2 : new_default (PyList []) =
               Raise (ValueError "Input data cannot be empty"))
    by reflexivity.
  split; [exact H1|].
  split; [exact (proj2 (proj1 (new_default_input_only _)) H1)|].
  split; [exact H2|].
  exact (proj2 (new_default_input_only _) _ H2).
Defined.

(** ** Batches: order, sub-batches, concatenation *)

Lemma forallb_Permutation {A} (f : A -> bool) (l l' : list A) :
  l ≡ₚ l' -> forallb f l = forallb f l'.
Proof.
  induction 1 as [|x l l' _ IH|x y l|l1 l2 l3 _ IH1 _ IH2]; simpl.
  - done.
  - by rewrite IH.
  - by destruct (f x), (f y).
  - by rewrite IH1.
Qed.

Lemma existsb_Permutation {A} (f : A -> bool) (l l' : list A) :
  l ≡ₚ l' -> existsb f l = existsb f l'.
Proof.
  induction 1 as [|x l l' _ IH|x y l|l1 l2 l3 _ IH1 _ IH2]; simpl.
  - done.
  - by rewrite IH.
  - by destruct (f x), (f y).
  - by rewrite IH1.
Qed.

(** X6: the outcome of validating a batch, the error raised included, does
    not depend on the order of its elements, although the two scans stop at
    the first offending element. *)
Theorem batch_order_irrelevant (l l' : list obj) :
  l ≡ₚ l' -> _validate_input (PyList l) = _validate_input (PyList l').
Proof.
  intros Hp. rewrite !_validate_input_list_tests. unfold len.
  rewrite (Permutation_length Hp).
  rewrite (forallb_Permutation nonempty_word _ _ Hp).
  by rewrite (existsb_Permutation too_long _ _ Hp).
Qed.

Lemma batch_order_irrelevant_witness :
  [PyStr (replicate 51 97%N); PyInt 3] ≡ₚ [PyInt 3; PyStr (replicate 51 97%N)]
  /\ _validate_input (PyList [PyStr (replicate 51 97%N); PyInt 3]) =
     _validate_input (PyList [PyInt 3; PyStr (replicate 51 97%N)]).
Proof.
  assert (H : [PyStr (replicate 51 97%N); PyInt 3]
                ≡ₚ [PyInt 3; PyStr (replicate 51 97%N)])
    by apply perm_swap.
  split; [exact H|]. exact (batch_order_irrelevant _ _ H).
Defined.

(** X7: accepted batches compose.  Every non-empty selection of elements
    of an accepted batch (a chunk, a sublist, in any order) is accepted, and
    the concatenation of two accepted batches is accepted as long as it has
    at most 1000 elements. *)
Theorem batches_compose (l l' : list obj) :
  _validate_input (PyList l) = Return tt ->
  (l' ⊆+ l -> l' <> [] -> _validate_input (PyList l') = Return tt) /\
  (_validate_input (PyList l') = Return tt -> len (l ++ l') <= 1000 ->
   _validate_input (PyList (l ++ l')) = Return tt).
Proof.
  intros [[H0 H1] Hall]%batch_checks. split.
  - intros Hsub Hne. apply batch_checks. split.
    + apply submseteq_length in Hsub. unfold len in *.
      destruct l'; [done|]. cbn [length] in *. lia.
    + rewrite Forall_forall in Hall |- *. intros w Hw.
      apply Hall. by eapply elem_of_submseteq.
  - intros [[H0' H1'] Hall']%batch_checks Hlen. apply batch_checks. split.
    + unfold len in *. rewrite length_app in *. lia.
    + by apply Forall_app.
Qed.

Lemma batches_compose_witness :
  _validate_input (PyList [PyStr (text "rumah"); PyStr (text "ruma")]) =
    Return tt /\
  [PyStr (text "ruma")] ⊆+ [PyStr (text "rumah"); PyStr (text "ruma")] /\
  _validate_input (PyList [PyStr (text "ruma")]) = Return tt /\
  len ([PyStr (text "rumah"); PyStr (text "ruma")] ++ [PyStr (text "ruma")])
    <= 1000 /\
  _validate_input
    (PyList ([PyStr (text "rumah"); PyStr (text "ruma")] ++
             [PyStr (text "ruma")])) = Return tt.
Proof.
  assert (H : _validate_input
                (PyList [PyStr (text "rumah"); PyStr (text "ruma")]) =
              Return tt) by reflexivity.
  assert (Hs : [PyStr (text "ruma")]
                 ⊆+ [PyStr (text "rumah"); PyStr (text "ruma")]).
  { apply submseteq_cons. apply submseteq_skip. apply submseteq_nil_l. }
  assert (Hl : len ([PyStr (text "rumah"); PyStr (text "ruma")] ++
                    [PyStr (text "ruma")]) <= 1000)
    by (vm_compute; discriminate).
  destruct (batches_compose _ [PyStr (text "ruma")] H) as [Hsub Hcat].
  assert (H' : _validate_input (PyList [PyStr (text "ruma")]) = Return tt).
  { apply Hsub; [exact Hs | discriminate]. }
  split; [exact H|]. split; [exact Hs|]. split; [exact H'|].
  split; [exact Hl|]. exact (Hcat H' Hl).
Defined.

(** ** Surrounding whitespace *)

Lemma lstrip_blank_app (pre t : str) :
  blank pre = true -> lstrip (pre ++ t) = lstrip t.
Proof.
  unfold blank. induction pre as [|c pre IH]; simpl; [done|].
  intros [-> Hp]%andb_prop. auto.
Qed.

Lemma lstrip_app (s t : str) :
  lstrip s <> [] -> lstrip (s ++ t) = lstrip s ++ t.
Proof.
  induction s as [|c s IH]; simpl; [done|].
  destruct (Py_UNICODE_ISSPACE c); [auto | done].
Qed.

Lemma blank_rev (s : str) : blank (rev s) = blank s.
Proof.
  unfold blank. induction s as [|c s IH]; simpl; [done|].
  rewrite forallb_app, IH. simpl. rewrite andb_true_r. apply andb_comm.
Qed.

Lemma rstrip_app_blank (t post : str) :
  blank post = true -> rstrip (t ++ post) = rstrip t.
Proof.
  intros Hp. unfold rstrip. rewrite rev_app_distr.
  rewrite lstrip_blank_app; [done|]. by rewrite blank_rev.
Qed.

Lemma lstrip_blank (s : str) : blank s = true -> lstrip s = [].
Proof. intros H. by apply lstrip_nil. Qed.

(** Whitespace put around a string is trimmed away with the string's own. *)
Lemma strip_padding (pre s post : str) :
  blank pre = true -> blank post = true ->
  strip (pre ++ s ++ post) = strip s.
Proof.
  intros Hpre Hpost. unfold strip. rewrite (lstrip_blank_app _ _ Hpre).
  destruct (lstrip s) as [|c t] eqn:E.
  - apply lstrip_nil in E. rewrite lstrip_blank; [done|].
    unfold blank in *. by rewrite forallb_app, E, Hpost.
  - rewrite lstrip_app by (by rewrite E). rewrite E.
    by apply rstrip_app_blank.
Qed.

Lemma lstrip_split (s : str) :
  exists pre, blank pre = true /\ s = pre ++ lstrip s.
Proof.
  induction s as [|c s (pre & Hp & Hs)]; simpl; [by exists []|].
  destruct (Py_UNICODE_ISSPACE c) eqn:Ec.
  - exists (c :: pre). unfold blank in *. simpl. rewrite Ec, Hp.
    split; [done | by rewrite <- Hs].
  - by exists [].
Qed.

Lemma strip_split (s : str) :
  exists pre post,
    blank pre = true /\ blank post = true /\ s = pre ++ strip s ++ post.
Proof.
  destruct (lstrip_split s) as (pre & Hpre & Hs).
  destruct (lstrip_split (rev (lstrip s))) as (tsop & Hpost & Ht).
  exists pre, (rev tsop). split; [done|]. split; [by rewrite blank_rev|].
  unfold strip, rstrip. rewrite <- rev_app_distr, <- Ht, rev_involutive.
  done.
Qed.

(** Trimming twice is trimming once. *)
Lemma strip_idemp (s : str) : strip (strip s) = strip s.
Proof.
  destruct (strip_split s) as (pre & post & Hpre & Hpost & Hs).
  rewrite Hs at 2. by rewrite strip_padding.
Qed.

(** X8: for a word that is not blank, whitespace around it changes nothing:
    the word with whitespace added before and after, the word as given and
    the trimmed word all get the same outcome, error included. *)
Theorem surrounding_whitespace_ignored (pre s post : str) :
  strip s <> [] -> blank pre = true -> blank post = true ->
  _validate_input (PyStr (pre ++ s ++ post)) = _validate_input (PyStr s) /\
  _validate_input (PyStr (strip s)) = _validate_input (PyStr s).
Proof.
  intros Hs Hpre Hpost. rewrite !_validate_input_str.
  rewrite strip_padding, strip_idemp by done.
  rewrite !strip_nonempty; [done|done| by rewrite strip_idemp |
                            by rewrite strip_padding].
Qed.

Lemma surrounding_whitespace_ignored_witness :
  strip (text "rumah") <> [] /\
  blank (text "  ") = true /\ blank [10%N] = true /\
  _validate_input (PyStr (text "  " ++ text "rumah" ++ [10%N])) =
    _validate_input (PyStr (text "rumah")) /\
  _validate_input (PyStr (strip (text "rumah"))) =
    _validate_input (PyStr (text "rumah")).
Proof.
  assert (H : strip (text "rumah") <> []) by (vm_compute; discriminate).
  split; [exact H|]. split; [reflexivity|]. split; [reflexivity|].
  exact (surrounding_whitespace_ignored (text "  ") (text "rumah") [10%N]
           H eq_refl eq_refl).
Defined.

(** ** Only the whitespace pattern matters *)

Lemma spaces_lstrip (s s' : str) :
  spaces s = spaces s' -> spaces (lstrip s) = spaces (lstrip s').
Proof.
  unfold spaces. revert s'.
  induction s as [|c s IH]; intros [|c' s']; simpl; try done.
  intros [= Hc Hs]. rewrite <- Hc.
  destruct (Py_UNICODE_ISSPACE c) eqn:Ec; [auto|].
  simpl. by rewrite Ec, Hc, Hs.
Qed.

Lemma spaces_rev (s : str) : spaces (rev s) = rev (spaces s).
Proof.
  unfold spaces. induction s as [|c s IH]; simpl; [done|].
  by rewrite fmap_app, IH.
Qed.

Lemma spaces_strip (s s' : str) :
  spaces s = spaces s' -> spaces (strip s) = spaces (strip s').
Proof.
  intros H. unfold strip, rstrip. rewrite !spaces_rev. f_equal.
  apply spaces_lstrip. rewrite !spaces_rev. f_equal.
  by apply spaces_lstrip.
Qed.

Lemma spaces_len (s s' : str) : spaces s = spaces s' -> len s = len s'.
Proof.
  intros H. apply (f_equal length) in H. unfold spaces in H.
  rewrite !length_fmap in H. unfold len. by rewrite H.
Qed.

(** X9: the validation of a word reads nothing of it but which of its
    characters are whitespace: two words with the same whitespace pattern
    get the same outcome, so no letter, digit or symbol is ever refused for
    what it is. *)
Theorem only_whitespace_pattern_matters (s s' : str) :
  spaces s = spaces s' ->
  _validate_input (PyStr s) = _validate_input (PyStr s').
Proof.
  intros H. rewrite !_validate_input_str. unfold truthy.
  rewrite (spaces_len _ _ H), (spaces_len _ _ (spaces_strip _ _ H)). done.
Qed.

Lemma only_whitespace_pattern_matters_witness :
  spaces (text " rumah") = spaces (text " 12:a?") /\
  _validate_input (PyStr (text " rumah")) =
    _validate_input (PyStr (text " 12:a?")).
Proof.
  assert (H : spaces (text " rumah") = spaces (text " 12:a?"))
    by reflexivity.
  split; [exact H|].
  exact (only_whitespace_pattern_matters _ _ H).
Defined.

(** ** Trimming a batch beforehand *)

Lemma nonempty_word_trimmed (w : obj) :
  nonempty_word (trimmed w) = nonempty_word w.
Proof. destruct w; simpl; try done. by rewrite strip_idemp. Qed.

Lemma too_long_trimmed (w : obj) : too_long (trimmed w) = too_long w.
Proof. destruct w; simpl; try done. by rewrite strip_idemp. Qed.

Lemma forallb_nonempty_trimmed (l : list obj) :
  forallb nonempty_word (trimmed <$> l) = forallb nonempty_word l.
Proof.
  induction l as [|w l IH]; [done|]. rewrite fmap_cons. cbn [forallb].
  by rewrite nonempty_word_trimmed, IH.
Qed.

Lemma existsb_too_long_trimmed (l : list obj) :
  existsb too_long (trimmed <$> l) = existsb too_long l.
Proof.
  induction l as [|w l IH]; [done|]. rewrite fmap_cons. cbn [existsb].
  by rewrite too_long_trimmed, IH.
Qed.

(** X10: trimming every string of a batch before validation changes
    nothing: the trimmed batch and the batch as given get the same outcome,
    error included, blank and non-string elements being refused either
    way. *)
Theorem batch_trimming_irrelevant (l : list obj) :
  _validate_input (PyList (trimmed <$> l)) = _validate_input (PyList l).
Proof.
  rewrite !_validate_input_list_tests. unfold len. rewrite length_fmap.
  by rewrite forallb_nonempty_trimmed, existsb_too_long_trimmed.
Qed.
